(** * Backup transfer service: [app/services/transfer.py]

    A shallow embedding of [transfer_file] and [transfer_scp] and the
    properties of the remote file name, the remote path, the error
    boundary and the handling of the SSH session and the SCP channel. *)

From Stdlib Require Import ZArith Lia List Ascii String Bool.
From stdpp Require Import base tactics option list strings gmap pretty.

Import ListNotations.
Local Open Scope string_scope.

(** ** Python strings

    A [str] is modelled by Rocq's [string]; [+:+] is concatenation. *)

Module PyStr.

(** [bool(s)]: a string is truthy when it is not empty. *)
Definition truthy (s : string) : bool :=
  match s with
  | EmptyString => false
  | String _ _ => true
  end.

(** [s[n:]] *)
Fixpoint drop (n : nat) (s : string) : string :=
  match n, s with
  | O, _ => s
  | S _, EmptyString => EmptyString
  | S n', String _ s' => drop n' s'
  end.

(** [s.startswith(p)] *)
Definition startswith (s p : string) : bool := String.prefix p s.

(** [s.endswith(p)] *)
Definition endswith (s p : string) : bool :=
  (String.length p <=? String.length s)%nat &&
  (drop (String.length s - String.length p) s =? p).

(** [s.rfind("/")]: the index of the last slash, [-1] when there is none. *)
Fixpoint rfind_slash_from (i : Z) (last : Z) (s : string) : Z :=
  match s with
  | EmptyString => last
  | String c s' =>
      rfind_slash_from (i + 1) (if Ascii.eqb c "/" then i else last) s'
  end.

Definition rfind_slash (s : string) : Z := rfind_slash_from 0 (-1) s.

(** [str.isspace] on one character, for the code points below 256. *)
Definition isspace (c : ascii) : bool :=
  let n := nat_of_ascii c in
  ((9 <=? n) && (n <=? 13) || (28 <=? n) && (n <=? 32)
   || (n =? 133) || (n =? 160))%nat.

Fixpoint lstrip (s : string) : string :=
  match s with
  | EmptyString => EmptyString
  | String c s' => if isspace c then lstrip s' else s
  end.

Fixpoint rstrip (s : string) : string :=
  match s with
  | EmptyString => EmptyString
  | String c s' =>
      match rstrip s' with
      | EmptyString => if isspace c then EmptyString else String c EmptyString
      | r => String c r
      end
  end.

(** [s.strip()] *)
Definition strip (s : string) : string := rstrip (lstrip s).

End PyStr.

(** [os.path.basename] of [posixpath]:
    [i = p.rfind('/') + 1; return p[i:]]. *)
Definition basename (p : string) : string :=
  let i := (PyStr.rfind_slash p + 1)%Z in
  PyStr.drop (Z.to_nat i) p.

(** ** Python values held by a configuration *)

Inductive PyVal : Type :=
  | PNone
  | PBool (b : bool)
  | PInt (z : Z)
  | PStr (s : string).

(** [bool(v)] *)
Definition truthy (v : PyVal) : bool :=
  match v with
  | PNone => false
  | PBool b => b
  | PInt z => negb (z =? 0)%Z
  | PStr s => PyStr.truthy s
  end.

(** [str(v)], as an f-string renders a value. *)
Definition py_str (v : PyVal) : string :=
  match v with
  | PNone => "None"
  | PBool true => "True"
  | PBool false => "False"
  | PInt z => pretty z
  | PStr s => s
  end.

(** [type(v).__name__] *)
Definition type_name (v : PyVal) : string :=
  match v with
  | PNone => "NoneType"
  | PBool _ => "bool"
  | PInt _ => "int"
  | PStr _ => "str"
  end.

(** [all(vs)] *)
Definition py_all (vs : list PyVal) : bool := forallb truthy vs.

(** [d.get(k)] and [d.get(k, default)]: the default is used only when the
    key is missing, a key bound to [None] yields [None]. *)
Definition dict_get (d : gmap string PyVal) (k : string) : PyVal :=
  match d !! k with
  | Some v => v
  | None => PNone
  end.

Definition dict_get_default (d : gmap string PyVal) (k : string) (dflt : PyVal) : PyVal :=
  match d !! k with
  | Some v => v
  | None => dflt
  end.

(** An optional string argument ([None] or a [str]) used as a condition. *)
Definition opt_truthy (o : option string) : bool :=
  match o with
  | Some s => PyStr.truthy s
  | None => false
  end.

(** ** The clock and [strftime("%Y%m%d_%H%M%S")] *)

Record datetime : Type := mkDatetime {
  dt_year : nat;
  dt_month : nat;
  dt_day : nat;
  dt_hour : nat;
  dt_minute : nat;
  dt_second : nat
}.

Definition digit (n : nat) : ascii := ascii_of_nat (48 + n mod 10).

(** The [w] low decimal digits of [n], zero padded. *)
Fixpoint zero_pad (w n : nat) : string :=
  match w with
  | O => EmptyString
  | S w' => zero_pad w' (n / 10) +:+ String (digit n) EmptyString
  end.

Definition strftime_Ymd_HMS (d : datetime) : string :=
  zero_pad 4 (dt_year d) +:+ zero_pad 2 (dt_month d) +:+ zero_pad 2 (dt_day d)
  +:+ "_" +:+
  zero_pad 2 (dt_hour d) +:+ zero_pad 2 (dt_minute d) +:+ zero_pad 2 (dt_second d).

(** ** [transfer_file], lines 29-43: the custom file name *)

(** The list [filename_parts] once both appends have run. *)
Definition filename_parts (now : datetime)
    (blueprint_id blueprint_name : option string) : list string :=
  let timestamp := strftime_Ymd_HMS now in
  let filename_parts := [] in
  let filename_parts :=
    if opt_truthy blueprint_name
       && negb (default "" blueprint_name =? "Default Blueprint")
    then (filename_parts ++ [default "" blueprint_name])%list
    else if opt_truthy blueprint_id
            && negb (default "" blueprint_id =? "default")
    then (filename_parts ++ [default "" blueprint_id])%list
    else filename_parts in
  (filename_parts ++ [timestamp])%list.

(** ["-".join(filename_parts)] *)
Definition custom_filename (now : datetime)
    (blueprint_id blueprint_name : option string) : string :=
  String.concat "-" (filename_parts now blueprint_id blueprint_name).

(** ** The outside world: exceptions, the log, the SSH and SCP libraries *)

(** The classes the [except] clauses of [transfer_scp] tell apart.  Every
    value of [exn] is an instance of [Exception], as the errors of the SSH
    and SCP libraries, the socket layer and the string methods are. *)
Inductive exn_class : Type :=
  | AuthenticationException
  | SSHException
  | OtherException.

Record exn : Type := mkExn { exn_cls : exn_class; exn_str : string }.

(** The class in an [except] clause. *)
Inductive except_class : Type :=
  | ExceptAuthenticationException
  | ExceptSSHException
  | ExceptException.

(** [isinstance(e, C)]: [AuthenticationException] derives from
    [SSHException], which derives from [Exception]. *)
Definition isinstance (e : exn) (c : except_class) : bool :=
  match c, exn_cls e with
  | ExceptAuthenticationException, AuthenticationException => true
  | ExceptAuthenticationException, _ => false
  | ExceptSSHException, (AuthenticationException | SSHException) => true
  | ExceptSSHException, OtherException => false
  | ExceptException, _ => true
  end.

Inductive level : Type := INFO | WARNING | ERROR.

(** What a run does to the outside, in the order it happens: the records
    handed to the logger and the calls made on the SSH client and on the
    SCP client. *)
Inductive event : Type :=
  | EvLog (l : level) (msg : string)
  | EvSSHClient
  | EvSetPolicy
  | EvConnect (kwargs : gmap string PyVal)
  | EvSCPClient
  | EvExec (cmd : string)
  | EvPut (src dst : string)
  | EvScpClose
  | EvSshClose.

(** How the remote side answers each call: [None] when the call succeeds,
    the exception when it raises.  [t_exec] gives the decoded standard
    output of the command ([stdout.read().decode()]). *)
Record transport : Type := mkTransport {
  t_connect : gmap string PyVal -> option exn;
  t_scp_client : option exn;
  t_exec : string -> exn + string;
  t_put : string -> string -> option exn;
  t_scp_close : option exn;
  t_ssh_close : option exn
}.

(** *** A monad for calls that emit events and may raise *)

Inductive outcome (A : Type) : Type :=
  | Returned (a : A)
  | Raised (e : exn).
Arguments Returned {A} a.
Arguments Raised {A} e.

Definition M (A : Type) : Type := list event * outcome A.

Definition ret {A} (a : A) : M A := ([], Returned a).
Definition raise {A} (e : exn) : M A := ([], Raised e).
Definition emit (ev : event) : M unit := ([ev], Returned tt).

Definition bind {A B} (m : M A) (k : A -> M B) : M B :=
  match m with
  | (tr, Returned a) => let (tr', r) := k a in ((tr ++ tr')%list, r)
  | (tr, Raised e) => (tr, Raised e)
  end.

(** [try: body  except ...: handler] *)
Definition try_except {A} (body : M A) (handler : exn -> M A) : M A :=
  match body with
  | (tr, Returned a) => (tr, Returned a)
  | (tr, Raised e) => let (tr', r) := handler e in ((tr ++ tr')%list, r)
  end.

#[global] Instance M_ret : MRet M := @ret.
#[global] Instance M_bind : MBind M := fun A B k m => bind m k.

(** A library call: the call is recorded, then it returns or raises. *)
Definition call (ev : event) (r : option exn) : M unit :=
  emit ev;;
  match r with
  | None => ret tt
  | Some e => raise e
  end.

Definition log (l : level) (msg : string) : M unit := emit (EvLog l msg).

(** [v.endswith(...)], [v.startswith(...)], [v[2:]] need [v] to be a
    [str]; any other configured value raises [AttributeError]. *)
Definition as_str (v : PyVal) (attr : string) : M string :=
  match v with
  | PStr s => ret s
  | _ => raise (mkExn OtherException
                  ("'" +:+ type_name v +:+ "' object has no attribute '" +:+ attr +:+ "'"))
  end.

Definition trace {A} (m : M A) : list event := fst m.
Definition result {A} (m : M A) : outcome A := snd m.

(** ** [transfer_scp] *)

(** Line 86: the local archive that is uploaded. *)
Definition full_aos_path (local_file_path : string) : string :=
  "/var/lib/aos/snapshot/" +:+ local_file_path +:+ "/aos.data.tar.gz".

(** Lines 85-92: the name of the file on the remote server. *)
Definition remote_filename (full_path : string) (custom_filename : option string) : string :=
  let filename := basename full_path in
  if opt_truthy custom_filename
  then default "" custom_filename +:+ "-aos.data.tar.gz"
  else filename +:+ "-aos.data.tar.gz".

(** Lines 99-112: the keyword arguments of [ssh.connect]. *)
Definition connect_kwargs (host port username password ssh_key_path : PyVal)
    : M (gmap string PyVal) :=
  let connect_kwargs : gmap string PyVal :=
    <["username" := username]> (<["port" := port]> (<["hostname" := host]> ∅)) in
  if truthy ssh_key_path then
    let connect_kwargs := <["key_filename" := ssh_key_path]> connect_kwargs in
    log INFO ("Using SSH key authentication with key: " +:+ py_str ssh_key_path);;
    mret connect_kwargs
  else if truthy password then
    let connect_kwargs := <["password" := password]> connect_kwargs in
    log INFO "Using password authentication";;
    mret connect_kwargs
  else
    log WARNING "No authentication method provided, using default keys";;
    mret connect_kwargs.

(** Lines 120-131: the remote path, computed over the open session. *)
Definition remote_path (t : transport) (remote_dir : PyVal) (remote_filename : string)
    : M string :=
  d ← as_str remote_dir "endswith";
  let remote_dir := if negb (PyStr.endswith d "/") then d +:+ "/" else d in
  if PyStr.startswith remote_dir "~/" then
    emit (EvExec "echo $HOME");;
    match t_exec t "echo $HOME" with
    | inl e => raise e
    | inr out =>
        let home_dir := PyStr.strip out in
        mret (home_dir +:+ "/" +:+ PyStr.drop 2 remote_dir +:+ remote_filename)
    end
  else
    mret (remote_dir +:+ remote_filename).

(** Lines 145-153: the three [except] clauses, tried in order. *)
Definition handler (e : exn) : M bool :=
  if isinstance e ExceptAuthenticationException then
    log ERROR ("Authentication failed: " +:+ exn_str e);; mret false
  else if isinstance e ExceptSSHException then
    log ERROR ("SSH error: " +:+ exn_str e);; mret false
  else if isinstance e ExceptException then
    log ERROR ("Error during SCP transfer: " +:+ exn_str e);; mret false
  else raise e.

Definition transfer_scp (t : transport) (config : gmap string PyVal)
    (local_file_path full_path : string) (custom_filename : option string) : M bool :=
  let host := dict_get config "host" in
  let port := dict_get_default config "port" (PInt 22) in
  let username := dict_get config "username" in
  let password := dict_get config "password" in
  let ssh_key_path := dict_get config "ssh_key_path" in
  let remote_dir := dict_get_default config "remote_directory" (PStr "~/") in
  if negb (py_all [host; username]) then
    log ERROR "Missing required SCP configuration";;
    mret false
  else
    let full_aos_path := full_aos_path local_file_path in
    let remote_filename := remote_filename full_path custom_filename in
    try_except
      (emit EvSSHClient;;
       emit EvSetPolicy;;
       connect_kwargs ← connect_kwargs host port username password ssh_key_path;
       call (EvConnect connect_kwargs) (t_connect t connect_kwargs);;
       call EvSCPClient (t_scp_client t);;
       remote_path ← remote_path t remote_dir remote_filename;
       log INFO ("Transferring file via SCP: " +:+ full_aos_path +:+ " -> "
                 +:+ py_str host +:+ ":" +:+ remote_path);;
       call (EvPut full_aos_path remote_path) (t_put t full_aos_path remote_path);;
       call EvScpClose (t_scp_close t);;
       call EvSshClose (t_ssh_close t);;
       log INFO "SCP transfer completed successfully";;
       mret true)
      handler.

(** ** [transfer_file] *)

Definition transfer_file (t : transport) (now : datetime)
    (config : gmap string (gmap string PyVal)) (full_path : string)
    (blueprint_id blueprint_name : option string) : M bool :=
  let custom_filename := custom_filename now blueprint_id blueprint_name in
  let local_file_path := basename full_path in
  let transfer_config := default ∅ (config !! "transfer") in
  let method := "scp" in
  if method =? "scp" then
    transfer_scp t transfer_config local_file_path full_path (Some custom_filename)
  else
    log ERROR ("Unsupported transfer method: " +:+ method);;
    mret false.

(** ** Observations on a run *)

(** The uploads a run asked for: source and destination of each [put]. *)
Definition puts (tr : list event) : list (string * string) :=
  omap (fun ev => match ev with EvPut src dst => Some (src, dst) | _ => None end) tr.

Definition count_events (p : event -> bool) (tr : list event) : nat :=
  length (List.filter p tr).

Definition is_ssh_client (ev : event) : bool :=
  match ev with EvSSHClient => true | _ => false end.
Definition is_connect (ev : event) : bool :=
  match ev with EvConnect _ => true | _ => false end.
Definition is_put (ev : event) : bool :=
  match ev with EvPut _ _ => true | _ => false end.
Definition is_scp_close (ev : event) : bool :=
  match ev with EvScpClose => true | _ => false end.
Definition is_ssh_close (ev : event) : bool :=
  match ev with EvSshClose => true | _ => false end.

Definition raised (r : option exn) : bool :=
  match r with Some _ => true | None => false end.

(** Whether the call recorded by [ev] raised, under the transport [t]. *)
Definition failing_call (t : transport) (ev : event) : bool :=
  match ev with
  | EvConnect kwargs => raised (t_connect t kwargs)
  | EvSCPClient => raised (t_scp_client t)
  | EvExec cmd => match t_exec t cmd with inl _ => true | inr _ => false end
  | EvPut src dst => raised (t_put t src dst)
  | EvScpClose => raised (t_scp_close t)
  | EvSshClose => raised (t_ssh_close t)
  | EvLog _ _ | EvSSHClient | EvSetPolicy => false
  end.

(** The upload was asked for and no call of the run raised. *)
Definition upload_completed (t : transport) (tr : list event) : bool :=
  existsb is_put tr && forallb (fun ev => negb (failing_call t ev)) tr.

(** The upload itself went through: a [put] was issued and returned. *)
Definition put_returned (t : transport) (tr : list event) : bool :=
  existsb (fun ev => is_put ev && negb (failing_call t ev)) tr.

(** A transport none of whose calls raises. *)
Definition never_raises (t : transport) : Prop :=
  (forall kwargs, t_connect t kwargs = None)
  /\ t_scp_client t = None
  /\ (forall cmd, exists out, t_exec t cmd = inr out)
  /\ (forall src dst, t_put t src dst = None)
  /\ t_scp_close t = None
  /\ t_ssh_close t = None.

(** A required field that is missing from the configuration, bound to
    [None], or bound to the empty string. *)
Definition missing_or_empty (config : gmap string PyVal) (k : string) : Prop :=
  config !! k = None \/ config !! k = Some PNone \/ config !! k = Some (PStr "").

(** ** The file name policy in the words of the specification *)

(** A value is present when it is given and not empty. *)
Definition present (o : option string) : option string :=
  match o with
  | Some (String c s) => Some (String c s)
  | _ => None
  end.

(** The name component: the blueprint name unless absent or the sentinel,
    else the blueprint id unless absent or the sentinel, else nothing. *)
Definition name_component_spec (blueprint_id blueprint_name : option string)
    : option string :=
  match present blueprint_name with
  | Some n =>
      if decide (n = "Default Blueprint") then
        match present blueprint_id with
        | Some i => if decide (i = "default") then None else Some i
        | None => None
        end
      else Some n
  | None =>
      match present blueprint_id with
      | Some i => if decide (i = "default") then None else Some i
      | None => None
      end
  end.

(** The components that are present, joined by a hyphen, the timestamp
    last. *)
Definition compose_spec (timestamp : string)
    (blueprint_id blueprint_name : option string) : string :=
  match name_component_spec blueprint_id blueprint_name with
  | Some c => c +:+ "-" +:+ timestamp
  | None => timestamp
  end.

(** ** The remote directory in the words of the specification *)

(** A trailing separator is appended if absent. *)
Definition ensure_separator (d : string) : string :=
  if PyStr.endswith d "/" then d else d +:+ "/".

(** [Some rest] when [s] is [p] followed by [rest]. *)
Fixpoint strip_prefix (p s : string) : option string :=
  match p, s with
  | EmptyString, _ => Some s
  | String _ _, EmptyString => None
  | String a p', String b s' => if Ascii.eqb a b then strip_prefix p' s' else None
  end.

(** The directory begins with the home shorthand once it has its
    separator. *)
Definition needs_home (d : string) : bool :=
  match strip_prefix "~/" (ensure_separator d) with
  | Some _ => true
  | None => false
  end.

(** The shorthand is replaced by the home directory of the remote user. *)
Definition resolved_directory (home d : string) : string :=
  match strip_prefix "~/" (ensure_separator d) with
  | Some rest => home +:+ "/" +:+ rest
  | None => ensure_separator d
  end.

(** The home directory the remote side reports over the session. *)
Definition remote_home (t : transport) : option string :=
  match t_exec t "echo $HOME" with
  | inr out => Some (PyStr.strip out)
  | inl _ => None
  end.

(** The pattern [YYYYMMDD_HHMMSS]. *)
Definition is_decimal (c : ascii) : bool :=
  (48 <=? nat_of_ascii c)%nat && (nat_of_ascii c <=? 57)%nat.

Definition timestamp_format (s : string) : bool :=
  match s with
  | String y1 (String y2 (String y3 (String y4 (String m1 (String m2
      (String d1 (String d2 (String u (String h1 (String h2 (String n1
      (String n2 (String s1 (String s2 EmptyString)))))))))))))) =>
      forallb is_decimal [y1; y2; y3; y4; m1; m2; d1; d2; h1; h2; n1; n2; s1; s2]
      && Ascii.eqb u "_"
  | _ => false
  end.

(** ** Sample configurations and transports

    The mock transports the properties are tried on. *)

Module Sample.

Definition newline : string := String (ascii_of_nat 10) EmptyString.

(** A configuration with the two required fields and a remote
    directory. *)
Definition config (remote_directory : string) : gmap string PyVal :=
  <["remote_directory" := PStr remote_directory]>
    (<["username" := PStr "svc"]> (<["host" := PStr "backup.example.net"]> ∅)).

(** Every call succeeds; [echo $HOME] prints [home] and a newline. *)
Definition transport_ok (home : string) : transport :=
  {| t_connect := fun _ => None;
     t_scp_client := None;
     t_exec := fun _ => inr (home +:+ newline);
     t_put := fun _ _ => None;
     t_scp_close := None;
     t_ssh_close := None |}.

(** The session opens, then the upload raises while it transfers. *)
Definition transport_put_raises : transport :=
  {| t_connect := fun _ => None;
     t_scp_client := None;
     t_exec := fun _ => inr ("/home/svc" +:+ newline);
     t_put := fun _ _ => Some (mkExn OtherException "scp: write failed");
     t_scp_close := None;
     t_ssh_close := None |}.

Definition now : datetime := mkDatetime 2024 3 7 9 5 1.

End Sample.

(** ** Further observations on a run *)

(** The keyword arguments of each [ssh.connect] of a run. *)
Definition connects (tr : list event) : list (gmap string PyVal) :=
  omap (fun ev => match ev with EvConnect kwargs => Some kwargs | _ => None end) tr.

(** The commands a run executed on the remote host. *)
Definition execs (tr : list event) : list string :=
  omap (fun ev => match ev with EvExec cmd => Some cmd | _ => None end) tr.

Definition is_scp_client (ev : event) : bool :=
  match ev with EvSCPClient => true | _ => false end.
Definition is_exec (ev : event) : bool :=
  match ev with EvExec _ => true | _ => false end.
Definition is_error_log (ev : event) : bool :=
  match ev with EvLog ERROR _ => true | _ => false end.

(** The text of the ERROR record each class of exception ends up with. *)
Definition error_message (e : exn) : string :=
  match exn_cls e with
  | AuthenticationException => "Authentication failed: " +:+ exn_str e
  | SSHException => "SSH error: " +:+ exn_str e
  | OtherException => "Error during SCP transfer: " +:+ exn_str e
  end.

(** The text of the [AttributeError] a value without [endswith] raises. *)
Definition no_endswith (v : PyVal) : string :=
  "'" +:+ type_name v +:+ "' object has no attribute 'endswith'".

Fixpoint has_slash (s : string) : bool :=
  match s with
  | EmptyString => false
  | String c s' => Ascii.eqb c "/" || has_slash s'
  end.

(** More mock transports. *)
Module Mock.

(** The server rejects the credentials. *)
Definition auth_rejected : transport :=
  {| t_connect := fun _ => Some (mkExn AuthenticationException "Authentication failed.");
     t_scp_client := None;
     t_exec := fun _ => inr ("/home/svc" +:+ Sample.newline);
     t_put := fun _ _ => None;
     t_scp_close := None;
     t_ssh_close := None |}.

(** The upload goes through, then closing the SCP channel raises. *)
Definition scp_close_raises : transport :=
  {| t_connect := fun _ => None;
     t_scp_client := None;
     t_exec := fun _ => inr ("/home/svc" +:+ Sample.newline);
     t_put := fun _ _ => None;
     t_scp_close := Some (mkExn OtherException "channel closed");
     t_ssh_close := None |}.

(** A configuration whose [remote_directory] key is bound to [None]. *)
Definition config_directory_none : gmap string PyVal :=
  <["remote_directory" := PNone]> (Sample.config "/srv/backups").

(** A configuration with a key file and a password, and no port. *)
Definition config_key_and_password : gmap string PyVal :=
  <["password" := PStr "secret"]>
    (<["ssh_key_path" := PStr "/root/.ssh/id_ed25519"]> (Sample.config "/srv/backups")).

End Mock.

(** * Properties *)

(** ** String concatenation *)

Module PyStrFacts.

Lemma app_assoc (a b c : string) : (a +:+ b) +:+ c = a +:+ b +:+ c.
Proof.
  unfold String.app. induction a as [|x a IH]; simpl; [reflexivity|].
  now rewrite IH.
Qed.

Lemma length_app (a b : string) :
  String.length (a +:+ b) = String.length a + String.length b.
Proof.
  unfold String.app. induction a as [|x a IH]; simpl; [reflexivity|].
  now rewrite IH.
Qed.

Lemma drop_length_app (a b : string) : PyStr.drop (String.length a) (a +:+ b) = b.
Proof. induction a as [|x a IH]; [reflexivity|]. exact IH. Qed.

Lemma endswith_app_slash (d : string) : PyStr.endswith (d +:+ "/") "/" = true.
Proof.
  unfold PyStr.endswith. rewrite length_app. cbn [String.length].
  replace (String.length d + 1 - 1)%nat with (String.length d) by lia.
  rewrite drop_length_app.
  replace (1 <=? String.length d + 1)%nat with true; [reflexivity|].
  symmetry. apply Nat.leb_le. lia.
Qed.

End PyStrFacts.

(** ** The file name composer *)

Section Composer.

Variable now : datetime.

Let ts : string := strftime_Ymd_HMS now.

Lemma is_decimal_digit (n : nat) : is_decimal (digit n) = true.
Proof.
  unfold digit. pose proof (Nat.mod_upper_bound n 10 ltac:(lia)) as Hlt.
  set (k := n mod 10) in *. clearbody k.
  do 10 (destruct k as [|k]; [reflexivity|]). lia.
Qed.

Lemma strftime_format : timestamp_format ts = true.
Proof.
  subst ts. cbv [strftime_Ymd_HMS zero_pad String.append timestamp_format forallb].
  rewrite !is_decimal_digit. reflexivity.
Qed.

Lemma strftime_length : String.length ts = 15.
Proof. reflexivity. Qed.

Lemma strftime_truthy : PyStr.truthy ts = true.
Proof. reflexivity. Qed.

Lemma present_truthy (o : option string) :
  opt_truthy o = match present o with Some _ => true | None => false end.
Proof. destruct o as [[|c s]|]; reflexivity. Qed.

Lemma present_default (o : option string) (v : string) :
  present o = Some v -> default "" o = v /\ v <> "".
Proof. destruct o as [[|c s]|]; simpl; intros; simplify_eq; split; done. Qed.

(** The list built by the two appends joins to what the policy says. *)
Lemma custom_filename_refines (blueprint_id blueprint_name : option string) :
  custom_filename now blueprint_id blueprint_name
  = compose_spec ts blueprint_id blueprint_name.
Proof.
  unfold custom_filename, filename_parts, compose_spec, name_component_spec.
  rewrite !present_truthy. fold ts.
  destruct (present blueprint_name) as [n|] eqn:Hn.
  - apply present_default in Hn as [-> Hn].
    destruct (decide (n = "Default Blueprint")) as [->|Hs].
    + simpl negb. cbn [andb].
      destruct (present blueprint_id) as [i|] eqn:Hi; [|reflexivity].
      apply present_default in Hi as [-> Hi].
      destruct (decide (i = "default")) as [->|Hd]; [reflexivity|].
      apply String.eqb_neq in Hd. rewrite Hd. reflexivity.
    + apply String.eqb_neq in Hs. rewrite Hs. reflexivity.
  - cbn [andb].
    destruct (present blueprint_id) as [i|] eqn:Hi; [|reflexivity].
    apply present_default in Hi as [-> Hi].
    destruct (decide (i = "default")) as [->|Hd]; [reflexivity|].
    apply String.eqb_neq in Hd. rewrite Hd. reflexivity.
Qed.

Lemma custom_filename_length (blueprint_id blueprint_name : option string) :
  15 <= String.length (custom_filename now blueprint_id blueprint_name).
Proof.
  rewrite custom_filename_refines. unfold compose_spec.
  destruct (name_component_spec _ _); [|reflexivity].
  rewrite !PyStrFacts.length_app. fold ts. rewrite strftime_length. lia.
Qed.

Lemma custom_filename_truthy (blueprint_id blueprint_name : option string) :
  PyStr.truthy (custom_filename now blueprint_id blueprint_name) = true.
Proof.
  pose proof (custom_filename_length blueprint_id blueprint_name) as H.
  destruct (custom_filename _ _ _); [simpl in H; lia | reflexivity].
Qed.

(** A suffix: the composed name always ends with the timestamp. *)
Lemma custom_filename_suffix (blueprint_id blueprint_name : option string) :
  exists pre, custom_filename now blueprint_id blueprint_name = pre +:+ ts.
Proof.
  rewrite custom_filename_refines. unfold compose_spec.
  destruct (name_component_spec _ _) as [c|].
  - exists (c +:+ "-"). now rewrite PyStrFacts.app_assoc.
  - now exists "".
Qed.

End Composer.

(** C5. The composed name follows the ordered policy: the blueprint name
    when it is present and not ["Default Blueprint"], else the blueprint id
    when it is present and not ["default"], else no name component; the
    timestamp, of the form [YYYYMMDD_HHMMSS], always comes last and the
    components are joined by a hyphen.  The three examples of the
    specification are instances. *)
Theorem compose_policy (now : datetime) (blueprint_id blueprint_name : option string) :
  let ts := strftime_Ymd_HMS now in
  custom_filename now blueprint_id blueprint_name
    = compose_spec ts blueprint_id blueprint_name
  /\ timestamp_format ts = true
  /\ custom_filename now (Some "b1") (Some "My Blueprint") = "My Blueprint-" +:+ ts
  /\ custom_filename now None (Some "Default Blueprint") = ts
  /\ custom_filename now (Some "default") None = ts.
Proof.
  intros ts. split; [apply custom_filename_refines|].
  split; [apply strftime_format|].
  split; [|split]; rewrite custom_filename_refines; reflexivity.
Qed.

(** C8. Whatever the blueprint id and name are, both absent included, the
    composed name is not the empty string. *)
Theorem compose_nonempty (now : datetime) (blueprint_id blueprint_name : option string) :
  custom_filename now blueprint_id blueprint_name <> "".
Proof.
  intros Heq. pose proof (custom_filename_truthy now blueprint_id blueprint_name) as H.
  rewrite Heq in H. discriminate H.
Qed.

(** C9. An empty string counts as an absent value: with an empty blueprint
    name, an id that is neither empty nor ["default"] is the name
    component; with both empty the result is the timestamp alone; and in
    either position the empty string and [None] give the same name. *)
Theorem compose_empty_is_absent (now : datetime) (blueprint_id : string)
    (Hid : blueprint_id <> "") (Hdefault : blueprint_id <> "default") :
  let ts := strftime_Ymd_HMS now in
  custom_filename now (Some blueprint_id) (Some "") = blueprint_id +:+ "-" +:+ ts
  /\ custom_filename now (Some "") (Some "") = ts
  /\ (forall i, custom_filename now i (Some "") = custom_filename now i None)
  /\ (forall n, custom_filename now (Some "") n = custom_filename now None n).
Proof.
  intros ts. split; [|split; [|split]].
  - rewrite custom_filename_refines. unfold compose_spec, name_component_spec.
    destruct blueprint_id as [|c s]; [done|]. cbn [present].
    destruct (decide _) as [Heq|]; [done|reflexivity].
  - reflexivity.
  - intros i. rewrite !custom_filename_refines. reflexivity.
  - intros n. rewrite !custom_filename_refines. reflexivity.
Qed.

Lemma compose_empty_is_absent_witness :
  let ts := strftime_Ymd_HMS Sample.now in
  custom_filename Sample.now (Some "b1") (Some "") = "b1" +:+ "-" +:+ ts
  /\ custom_filename Sample.now (Some "") (Some "") = ts
  /\ (forall i, custom_filename Sample.now i (Some "") = custom_filename Sample.now i None)
  /\ (forall n, custom_filename Sample.now (Some "") n = custom_filename Sample.now None n).
Proof. apply (compose_empty_is_absent Sample.now "b1"); discriminate. Defined.

(** ** Runs of [transfer_scp] *)

Section Runs.

Variable t : transport.

Lemma connect_kwargs_run (host port username password ssh_key_path : PyVal) :
  exists kwargs lvl msg,
    connect_kwargs host port username password ssh_key_path
    = ([EvLog lvl msg], Returned kwargs).
Proof.
  unfold connect_kwargs.
  destruct (truthy ssh_key_path); [|destruct (truthy password)];
    eexists _, _, _; reflexivity.
Qed.

Lemma handler_run (e : exn) :
  exists msg, handler e = ([EvLog ERROR msg], Returned false).
Proof.
  unfold handler. destruct e as [[] m]; eexists; reflexivity.
Qed.

Lemma strip_prefix_home (s : string) :
  strip_prefix "~/" s
  = if PyStr.startswith s "~/" then Some (PyStr.drop 2 s) else None.
Proof.
  unfold PyStr.startswith.
  destruct s as [|a [|b s]]; cbn [strip_prefix String.prefix PyStr.drop].
  - reflexivity.
  - destruct (ascii_dec "~" a) as [<-|Hne]; [reflexivity|].
    apply Ascii.eqb_neq in Hne. now rewrite Hne.
  - destruct (ascii_dec "~" a) as [<-|Hne].
    + rewrite Ascii.eqb_refl.
      destruct (ascii_dec "/" b) as [<-|Hne].
      * rewrite Ascii.eqb_refl. now destruct s.
      * apply Ascii.eqb_neq in Hne. now rewrite Hne.
    + apply Ascii.eqb_neq in Hne. now rewrite Hne.
Qed.

(** What lines 120-131 compute when the configured directory is a
    string. *)
Lemma remote_path_run (d fn : string) :
  remote_path t (PStr d) fn
  = if needs_home d then
      match t_exec t "echo $HOME" with
      | inl e => ([EvExec "echo $HOME"], Raised e)
      | inr out =>
          ([EvExec "echo $HOME"],
           Returned (resolved_directory (PyStr.strip out) d +:+ fn))
      end
    else ([], Returned (resolved_directory "" d +:+ fn)).
Proof.
  unfold remote_path, needs_home, resolved_directory, ensure_separator.
  cbn [as_str]. cbv beta iota zeta delta [mbind M_bind bind mret M_ret ret app].
  destruct (PyStr.endswith d "/"); cbn [negb];
    rewrite strip_prefix_home.
  - destruct (PyStr.startswith d "~/"); [|reflexivity].
    cbv beta iota zeta delta [emit raise mbind M_bind bind mret M_ret ret app].
    destruct (t_exec t "echo $HOME"); [reflexivity|].
    now rewrite !PyStrFacts.app_assoc.
  - destruct (PyStr.startswith (d +:+ "/") "~/"); [|reflexivity].
    cbv beta iota zeta delta [emit raise mbind M_bind bind mret M_ret ret app].
    destruct (t_exec t "echo $HOME"); [reflexivity|].
    now rewrite !PyStrFacts.app_assoc.
Qed.


End Runs.

(** Case analysis on a run: every answer of the transport is split on, and
    the monadic steps are computed. *)
Ltac eval_run :=
  cbv beta iota zeta delta
    [mbind M_bind bind mret M_ret ret emit call log raise try_except
     remote_path as_str List.app trace result fst snd].

Ltac case_call :=
  match goal with
  | |- context [connect_kwargs ?a ?b ?c ?d ?e] =>
      destruct (connect_kwargs_run a b c d e) as (?kwargs & ?lvl & ?msg & ->)
  | |- context [handler ?e] =>
      destruct (handler_run e) as [?msg ->]
  | |- context [remote_path ?t (PStr ?d) ?fn] =>
      rewrite (remote_path_run t d fn);
      destruct (needs_home d) eqn:?Hhome
  | |- context [t_connect ?t ?k] => destruct (t_connect t k) eqn:?Hconnect
  | |- context [t_scp_client ?t] => destruct (t_scp_client t) eqn:?Hclient
  | |- context [t_exec ?t ?c] => destruct (t_exec t c) eqn:?Hexec
  | |- context [t_put ?t ?a ?b] => destruct (t_put t a b) eqn:?Hput
  | |- context [t_scp_close ?t] => destruct (t_scp_close t) eqn:?Hscpclose
  | |- context [t_ssh_close ?t] => destruct (t_ssh_close t) eqn:?Hsshclose
  end.

Ltac scp_cases config :=
  unfold transfer_scp;
  destruct (py_all [dict_get config "host"; dict_get config "username"])
    eqn:Hvalid; cbn [negb];
  [ destruct (dict_get_default config "remote_directory" (PStr "~/"))
      as [| ?b | ?z | ?d] eqn:Hdir;
    repeat (first [case_call | progress eval_run])
  | eval_run ].

Ltac use_answers :=
  repeat match goal with
         | H : ?l = _ |- context [?l] => rewrite H
         end.

Lemma transfer_file_unfold (t : transport) (now : datetime)
    (config : gmap string (gmap string PyVal)) (full_path : string)
    (blueprint_id blueprint_name : option string) :
  transfer_file t now config full_path blueprint_id blueprint_name
  = transfer_scp t (default ∅ (config !! "transfer")) (basename full_path) full_path
      (Some (custom_filename now blueprint_id blueprint_name)).
Proof. reflexivity. Qed.

(** A run asks for at most one upload, of the staged archive, into a
    directory followed by the remote file name. *)
Lemma transfer_scp_puts (t : transport) (config : gmap string PyVal)
    (local_file_path full_path : string) (custom_filename : option string) :
  let run := transfer_scp t config local_file_path full_path custom_filename in
  puts (trace run) = []
  \/ exists dir,
       puts (trace run)
       = [(full_aos_path local_file_path,
           dir +:+ remote_filename full_path custom_filename)].
Proof.
  intros run; subst run. scp_cases config;
    solve [ left; reflexivity | right; eexists; reflexivity ].
Qed.

(** The boolean a run returns. *)
Lemma transfer_scp_result (t : transport) (config : gmap string PyVal)
    (local_file_path full_path : string) (custom_filename : option string) :
  let run := transfer_scp t config local_file_path full_path custom_filename in
  result run = Returned (upload_completed t (trace run)).
Proof.
  intros run; subst run. scp_cases config;
    unfold upload_completed;
    cbn [existsb forallb is_put failing_call orb andb negb raised];
    use_answers; reflexivity.
Qed.

Lemma ensure_separator_endswith (d : string) :
  PyStr.endswith (ensure_separator d) "/" = true.
Proof.
  unfold ensure_separator. destruct (PyStr.endswith d "/") eqn:H; [exact H|].
  apply PyStrFacts.endswith_app_slash.
Qed.

Lemma resolved_directory_no_home (home d : string) :
  needs_home d = false -> resolved_directory home d = ensure_separator d.
Proof.
  unfold needs_home, resolved_directory.
  destruct (strip_prefix "~/" (ensure_separator d)); [discriminate|reflexivity].
Qed.

Lemma missing_or_empty_falsy (config : gmap string PyVal) (k : string) :
  missing_or_empty config k -> truthy (dict_get config k) = false.
Proof. unfold dict_get. intros [-> | [-> | ->]]; reflexivity. Qed.

(** ** The secure transfer client *)

(** C2. When the host or the user name is missing or empty, the run logs
    the configuration error and returns [False]; that record is the whole
    run: no SSH client is created and no connection is attempted. *)
Theorem missing_host_or_username_no_io (t : transport) (config : gmap string PyVal)
    (local_file_path full_path : string) (custom_filename : option string)
    (Hmissing : missing_or_empty config "host" \/ missing_or_empty config "username") :
  let run := transfer_scp t config local_file_path full_path custom_filename in
  run = ([EvLog ERROR "Missing required SCP configuration"], Returned false)
  /\ count_events is_ssh_client (trace run) = 0
  /\ count_events is_connect (trace run) = 0.
Proof.
  intros run.
  assert (run = ([EvLog ERROR "Missing required SCP configuration"], Returned false))
    as ->; [|repeat split].
  subst run. unfold transfer_scp.
  assert (py_all [dict_get config "host"; dict_get config "username"] = false) as ->.
  { unfold py_all. cbn [forallb].
    destruct Hmissing as [H|H]; apply missing_or_empty_falsy in H; rewrite H.
    - reflexivity.
    - apply andb_false_r. }
  reflexivity.
Qed.

Lemma missing_host_or_username_no_io_witness :
  let run := transfer_scp (Sample.transport_ok "/home/svc")
               (<["host" := PStr ""]> (Sample.config "/srv/backups"))
               "snap" "/tmp/snap" None in
  run = ([EvLog ERROR "Missing required SCP configuration"], Returned false)
  /\ count_events is_ssh_client (trace run) = 0
  /\ count_events is_connect (trace run) = 0.
Proof.
  apply missing_host_or_username_no_io.
  left. right. right. vm_compute. reflexivity.
Defined.

(** C3. The file a run uploads is the staged archive
    [/var/lib/aos/snapshot/<segment>/aos.data.tar.gz], whatever the
    configuration and the [full_path] argument are; through
    [transfer_file] the segment is the base name of the path given to it.
    The sample run uploads exactly that file. *)
Theorem upload_source_is_fixed_template (t : transport) (now : datetime)
    (scp_config : gmap string PyVal) (config : gmap string (gmap string PyVal))
    (local_file_path full_path : string) (prefix : option string)
    (blueprint_id blueprint_name : option string) :
  Forall (fun p => fst p = "/var/lib/aos/snapshot/" +:+ local_file_path +:+ "/aos.data.tar.gz")
    (puts (trace (transfer_scp t scp_config local_file_path full_path prefix)))
  /\ Forall (fun p => fst p
                      = "/var/lib/aos/snapshot/" +:+ basename full_path +:+ "/aos.data.tar.gz")
       (puts (trace (transfer_file t now config full_path blueprint_id blueprint_name)))
  /\ map fst (puts (trace (transfer_file (Sample.transport_ok "/home/svc") now
                             {[ "transfer" := Sample.config "/srv/backups" ]}
                             "/tmp/work/snap-1" blueprint_id blueprint_name)))
     = ["/var/lib/aos/snapshot/snap-1/aos.data.tar.gz"].
Proof.
  split; [|split].
  - destruct (transfer_scp_puts t scp_config local_file_path full_path prefix)
      as [-> | [dir ->]]; [constructor|].
    constructor; [reflexivity|constructor].
  - rewrite transfer_file_unfold.
    destruct (transfer_scp_puts t (default ∅ (config !! "transfer")) (basename full_path)
                full_path (Some (custom_filename now blueprint_id blueprint_name)))
      as [-> | [dir ->]]; [constructor|].
    constructor; [reflexivity|constructor].
  - rewrite transfer_file_unfold.
    replace (default ∅ (({[ "transfer" := Sample.config "/srv/backups" ]}
                          : gmap string (gmap string PyVal)) !! "transfer"))
      with (Sample.config "/srv/backups") by (vm_compute; reflexivity).
    set (cf := custom_filename now blueprint_id blueprint_name).
    unfold transfer_scp.
    replace (py_all _) with true by (vm_compute; reflexivity).
    replace (dict_get_default (Sample.config "/srv/backups") "remote_directory" (PStr "~/"))
      with (PStr "/srv/backups") by (vm_compute; reflexivity).
    cbn [negb].
    repeat (first [case_call | progress eval_run]); try discriminate.
    reflexivity.
Qed.

(** C6. The remote file name is the prefix followed by [-aos.data.tar.gz]
    when a prefix is supplied (given and not empty), and the base name of
    [full_path] followed by the same suffix otherwise; every upload of a
    run goes to a directory followed by that name. *)
Theorem remote_filename_policy (t : transport) (config : gmap string PyVal)
    (local_file_path full_path : string) (custom_filename : option string) :
  remote_filename full_path custom_filename
  = match present custom_filename with
    | Some prefix => prefix +:+ "-aos.data.tar.gz"
    | None => basename full_path +:+ "-aos.data.tar.gz"
    end
  /\ Forall (fun p => exists dir,
                snd p = dir +:+ remote_filename full_path custom_filename)
       (puts (trace (transfer_scp t config local_file_path full_path custom_filename))).
Proof.
  split.
  - unfold remote_filename. destruct custom_filename as [[|c s]|]; reflexivity.
  - destruct (transfer_scp_puts t config local_file_path full_path custom_filename)
      as [-> | [dir ->]]; [constructor|].
    constructor; [|constructor]. exists dir. reflexivity.
Qed.

Lemma failing_call_not_completed (t : transport) (tr : list event) :
  existsb (failing_call t) tr = true -> upload_completed t tr = false.
Proof.
  intros Hfail. unfold upload_completed.
  assert (forallb (fun ev => negb (failing_call t ev)) tr = false) as ->;
    [|apply andb_false_r].
  induction tr as [|ev tr IH]; [discriminate Hfail|].
  cbn [existsb forallb] in *.
  destruct (failing_call t ev); [reflexivity|]. cbn [orb negb andb] in *. auto.
Qed.

Lemma transfer_scp_succeeds (t : transport) (config : gmap string PyVal)
    (local_file_path full_path : string) (custom_filename : option string)
    (d : string) :
  truthy (dict_get config "host") = true ->
  truthy (dict_get config "username") = true ->
  dict_get_default config "remote_directory" (PStr "~/") = PStr d ->
  never_raises t ->
  let run := transfer_scp t config local_file_path full_path custom_filename in
  result run = Returned true /\ put_returned t (trace run) = true.
Proof.
  intros Hhost Huser Hdirectory (Hconnect & Hclient & Hexec & Hput & Hscp & Hssh) run.
  subst run. unfold transfer_scp, py_all. cbn [forallb].
  rewrite Hhost, Huser, Hdirectory. cbn [andb negb].
  destruct (connect_kwargs_run (dict_get config "host")
              (dict_get_default config "port" (PInt 22)) (dict_get config "username")
              (dict_get config "password") (dict_get config "ssh_key_path"))
    as (kwargs & lvl & msg & ->).
  rewrite remote_path_run, Hclient, Hscp, Hssh.
  destruct (Hexec "echo $HOME") as [out ->].
  unfold put_returned.
  destruct (needs_home d);
    cbv beta iota zeta delta
      [mbind M_bind bind mret M_ret ret emit call log raise try_except List.app
       trace result fst snd];
    rewrite Hconnect, Hput;
    cbn [existsb is_put failing_call andb orb negb raised];
    rewrite ?Hput; split; reflexivity.
Qed.

(** C7. A run of [transfer_scp] never raises, and neither does one of
    [transfer_file]: the caller gets a boolean.  Every exception is caught
    by one of the [except] clauses, which logs it and returns [False]; so
    a run in which a call raised, while connecting, while asking for the
    home directory, while uploading or while closing the channel or the
    session, returns [False].  The run returns [True] exactly when the
    upload was asked for and no call raised, the two close calls
    included; with a host, a user name and a string for the remote
    directory, a transport that never raises gives [True] and the upload
    is made. *)
Theorem transfer_scp_error_boundary (t : transport) (now : datetime)
    (scp_config : gmap string PyVal) (config : gmap string (gmap string PyVal))
    (local_file_path full_path : string) (custom_filename : option string)
    (blueprint_id blueprint_name : option string) :
  let run := transfer_scp t scp_config local_file_path full_path custom_filename in
  let run' := transfer_file t now config full_path blueprint_id blueprint_name in
  (exists b, result run = Returned b)
  /\ (exists b, result run' = Returned b)
  /\ (forall e, exists msg, handler e = ([EvLog ERROR msg], Returned false))
  /\ (existsb (failing_call t) (trace run) = true -> result run = Returned false)
  /\ result run = Returned (upload_completed t (trace run))
  /\ (forall d,
        truthy (dict_get scp_config "host") = true ->
        truthy (dict_get scp_config "username") = true ->
        dict_get_default scp_config "remote_directory" (PStr "~/") = PStr d ->
        never_raises t ->
        result run = Returned true /\ put_returned t (trace run) = true).
Proof.
  intros run run'.
  split; [eexists; apply transfer_scp_result|].
  split; [subst run'; rewrite transfer_file_unfold; eexists; apply transfer_scp_result|].
  split; [apply handler_run|].
  split; [|split].
  - intros Hfail. subst run. rewrite transfer_scp_result.
    now rewrite failing_call_not_completed.
  - apply transfer_scp_result.
  - intros d Hhost Huser Hdirectory Hnever.
    now apply (transfer_scp_succeeds t scp_config local_file_path full_path
                 custom_filename d).
Qed.

Lemma never_raises_transport_ok (home : string) : never_raises (Sample.transport_ok home).
Proof. repeat split. intros cmd. eexists. reflexivity. Qed.

Lemma transfer_scp_error_boundary_witness :
  let run := transfer_scp (Sample.transport_ok "/home/svc") (Sample.config "~/backups/")
               "snap-1" "/tmp/work/snap-1" None in
  result run = Returned true
  /\ put_returned (Sample.transport_ok "/home/svc") (trace run) = true.
Proof.
  intros run.
  pose proof (transfer_scp_error_boundary (Sample.transport_ok "/home/svc") Sample.now
                (Sample.config "~/backups/") ∅ "snap-1" "/tmp/work/snap-1" None
                None None) as H.
  cbv zeta in H. destruct H as (_ & _ & _ & _ & _ & H).
  apply (H "~/backups/"); try (vm_compute; reflexivity).
  apply never_raises_transport_ok.
Defined.

(** The upload is made and returns, closing the SCP channel raises, and
    the run returns [False]: a completed upload alone does not give
    [True]. *)
Lemma completed_upload_returns_false :
  let t := Mock.scp_close_raises in
  let run := transfer_scp t (Sample.config "/srv/backups")
               "snap-1" "/tmp/work/snap-1" None in
  put_returned t (trace run) = true
  /\ puts (trace run)
     = [("/var/lib/aos/snapshot/snap-1/aos.data.tar.gz",
         "/srv/backups/snap-1-aos.data.tar.gz")]
  /\ result run = Returned false
  /\ result run <> Returned true.
Proof. vm_compute. repeat split. discriminate. Qed.

(** C10. Through [transfer_file] the prefix handed to [transfer_scp] is
    never empty, so the remote file name is that prefix followed by
    [-aos.data.tar.gz], independently of the base name of the path; the
    name, and the destination of every upload, end with the timestamp
    followed by [-aos.data.tar.gz]. *)
Theorem transfer_file_remote_filename (t : transport) (now : datetime)
    (config : gmap string (gmap string PyVal)) (full_path : string)
    (blueprint_id blueprint_name : option string) :
  let ts := strftime_Ymd_HMS now in
  let prefix := custom_filename now blueprint_id blueprint_name in
  prefix <> ""
  /\ remote_filename full_path (Some prefix) = prefix +:+ "-aos.data.tar.gz"
  /\ (exists pre, remote_filename full_path (Some prefix)
                  = pre +:+ ts +:+ "-aos.data.tar.gz")
  /\ Forall (fun p => exists pre, snd p = pre +:+ ts +:+ "-aos.data.tar.gz")
       (puts (trace (transfer_file t now config full_path blueprint_id blueprint_name))).
Proof.
  intros ts prefix.
  assert (Hname : remote_filename full_path (Some prefix) = prefix +:+ "-aos.data.tar.gz").
  { unfold remote_filename. cbn [opt_truthy default].
    subst prefix. now rewrite custom_filename_truthy. }
  assert (Hsuffix : exists pre, remote_filename full_path (Some prefix)
                                = pre +:+ ts +:+ "-aos.data.tar.gz").
  { rewrite Hname.
    destruct (custom_filename_suffix now blueprint_id blueprint_name) as [pre Hpre].
    exists pre. subst prefix ts. rewrite Hpre. apply PyStrFacts.app_assoc. }
  split; [|split; [exact Hname|split; [exact Hsuffix|]]].
  - intros Heq. pose proof (custom_filename_truthy now blueprint_id blueprint_name) as H.
    fold prefix in H. rewrite Heq in H. discriminate H.
  - rewrite transfer_file_unfold. fold prefix.
    destruct (transfer_scp_puts t (default ∅ (config !! "transfer")) (basename full_path)
                full_path (Some prefix)) as [-> | [dir ->]]; [constructor|].
    constructor; [|constructor]. cbn [snd].
    destruct Hsuffix as [pre ->]. exists (dir +:+ pre).
    now rewrite PyStrFacts.app_assoc.
Qed.

(** C4. With a valid configuration whose remote directory is the string
    [d], a session that opens and a remote side that reports [home] for
    [echo $HOME], the upload goes to the resolved directory followed by
    the remote file name: [d] gets a trailing separator when it has none,
    and a leading [~/] is replaced by [home] and a separator.  So
    ["~/backups/"] with home [/home/svc] resolves under
    [/home/svc/backups/] and ["/srv/backups"] under [/srv/backups/]. *)
Theorem remote_directory_resolution (t : transport) (config : gmap string PyVal)
    (local_file_path full_path : string) (custom_filename : option string)
    (d home : string)
    (Hhost : truthy (dict_get config "host") = true)
    (Huser : truthy (dict_get config "username") = true)
    (Hdir : dict_get_default config "remote_directory" (PStr "~/") = PStr d)
    (Hconnect : forall kwargs, t_connect t kwargs = None)
    (Hclient : t_scp_client t = None)
    (Hhome : remote_home t = Some home) :
  puts (trace (transfer_scp t config local_file_path full_path custom_filename))
  = [(full_aos_path local_file_path,
      resolved_directory home d +:+ remote_filename full_path custom_filename)]
  /\ PyStr.endswith (ensure_separator d) "/" = true
  /\ resolved_directory "/home/svc" "~/backups/" = "/home/svc/backups/"
  /\ resolved_directory home "/srv/backups" = "/srv/backups/".
Proof.
  split; [|split; [apply ensure_separator_endswith|split; reflexivity]].
  unfold transfer_scp, py_all. cbn [forallb]. rewrite Hhost, Huser, Hdir.
  cbn [andb negb].
  destruct (connect_kwargs_run (dict_get config "host")
              (dict_get_default config "port" (PInt 22)) (dict_get config "username")
              (dict_get config "password") (dict_get config "ssh_key_path"))
    as (kwargs & lvl & msg & ->).
  rewrite remote_path_run, Hclient.
  unfold remote_home in Hhome.
  destruct (t_exec t "echo $HOME") as [e|out]; [discriminate|].
  injection Hhome as <-.
  eval_run. rewrite Hconnect.
  destruct (needs_home d) eqn:Hneeds.
  - repeat (first [case_call | progress eval_run]); reflexivity.
  - rewrite (resolved_directory_no_home (PyStr.strip out) d Hneeds).
    rewrite (resolved_directory_no_home "" d Hneeds).
    repeat (first [case_call | progress eval_run]); reflexivity.
Qed.

Lemma remote_directory_resolution_witness :
  (puts (trace (transfer_scp (Sample.transport_ok "/home/svc") (Sample.config "~/backups/")
                  "snap-1" "/tmp/work/snap-1" (Some "bp-20240307_090501")))
   = [(full_aos_path "snap-1",
       resolved_directory "/home/svc" "~/backups/"
       +:+ remote_filename "/tmp/work/snap-1" (Some "bp-20240307_090501"))]
   /\ PyStr.endswith (ensure_separator "~/backups/") "/" = true
   /\ resolved_directory "/home/svc" "~/backups/" = "/home/svc/backups/"
   /\ resolved_directory "/home/svc" "/srv/backups" = "/srv/backups/")
  /\ (puts (trace (transfer_scp (Sample.transport_ok "/home/svc") (Sample.config "/srv/backups")
                     "snap-1" "/tmp/work/snap-1" None))
      = [(full_aos_path "snap-1",
          resolved_directory "/home/svc" "/srv/backups"
          +:+ remote_filename "/tmp/work/snap-1" None)]
      /\ PyStr.endswith (ensure_separator "/srv/backups") "/" = true
      /\ resolved_directory "/home/svc" "~/backups/" = "/home/svc/backups/"
      /\ resolved_directory "/home/svc" "/srv/backups" = "/srv/backups/").
Proof.
  split.
  - apply (remote_directory_resolution (Sample.transport_ok "/home/svc")
             (Sample.config "~/backups/"));
      try (vm_compute; reflexivity); intros; reflexivity.
  - apply (remote_directory_resolution (Sample.transport_ok "/home/svc")
             (Sample.config "/srv/backups"));
      try (vm_compute; reflexivity); intros; reflexivity.
Defined.

(** The two sample runs of C4, with the paths written out. *)
Example resolve_home_shorthand :
  puts (trace (transfer_scp (Sample.transport_ok "/home/svc") (Sample.config "~/backups/")
                 "snap-1" "/tmp/work/snap-1" (Some "bp-20240307_090501")))
  = [("/var/lib/aos/snapshot/snap-1/aos.data.tar.gz",
      "/home/svc/backups/bp-20240307_090501-aos.data.tar.gz")].
Proof. vm_compute. reflexivity. Qed.

Example resolve_inserts_separator :
  puts (trace (transfer_scp (Sample.transport_ok "/home/svc") (Sample.config "/srv/backups")
                 "snap-1" "/tmp/work/snap-1" None))
  = [("/var/lib/aos/snapshot/snap-1/aos.data.tar.gz",
      "/srv/backups/snap-1-aos.data.tar.gz")].
Proof. vm_compute. reflexivity. Qed.

(** The close calls of a run: at most one of each, and both are made when
    the run returns [True]. *)
Lemma close_calls (t : transport) (config : gmap string PyVal)
    (local_file_path full_path : string) (custom_filename : option string) :
  let run := transfer_scp t config local_file_path full_path custom_filename in
  count_events is_scp_close (trace run) <= 1
  /\ count_events is_ssh_close (trace run) <= 1
  /\ (result run = Returned true ->
      count_events is_scp_close (trace run) = 1
      /\ count_events is_ssh_close (trace run) = 1).
Proof.
  intros run; subst run. scp_cases config;
    unfold count_events; cbn [List.filter is_scp_close is_ssh_close length];
    (split; [lia|split; [lia|]]); intros H; try discriminate H; split; reflexivity.
Qed.

(** C1. The session opens and the upload raises while it transfers: the
    run returns [False] having closed neither the SCP channel nor the SSH
    session, where the specification asks for one close of each.  On the same
    input with an upload that succeeds, each is closed once. *)
Theorem put_failure_leaves_session_open :
  let config := Sample.config "/srv/backups" in
  let failing :=
    transfer_scp Sample.transport_put_raises config "snap-1" "/tmp/work/snap-1" None in
  let passing :=
    transfer_scp (Sample.transport_ok "/home/svc") config "snap-1" "/tmp/work/snap-1" None in
  result failing = Returned false
  /\ count_events is_connect (trace failing) = 1
  /\ existsb (failing_call Sample.transport_put_raises)
       (List.filter is_connect (trace failing)) = false
  /\ count_events is_put (trace failing) = 1
  /\ count_events is_scp_close (trace failing) = 0
  /\ count_events is_ssh_close (trace failing) = 0
  /\ result passing = Returned true
  /\ count_events is_scp_close (trace passing) = 1
  /\ count_events is_ssh_close (trace passing) = 1.
Proof. vm_compute. repeat split. Qed.

(** * Further properties of [transfer_file] and [transfer_scp] *)

(** ** Base names *)

Lemma rfind_slash_from_spec (s : string) (i last : Z) :
  (last < i)%Z ->
  let r := PyStr.rfind_slash_from i last s in
  (r = last /\ has_slash s = false)
  \/ ((i <= r < i + Z.of_nat (String.length s))%Z
      /\ has_slash s = true
      /\ has_slash (PyStr.drop (Z.to_nat (r - i + 1)) s) = false).
Proof.
  revert i last. induction s as [|c s IH]; intros i last Hlt; cbn zeta.
  - left. split; reflexivity.
  - cbn [PyStr.rfind_slash_from has_slash String.length].
    destruct (Ascii.eqb c "/") eqn:Hc; cbn [orb].
    + destruct (IH (i + 1)%Z i ltac:(lia)) as [[Hr Hs] | (Hr & Hs & Hd)]; right.
      * rewrite Hr. split; [lia|]. split; [reflexivity|].
        replace (Z.to_nat (i - i + 1)) with 1%nat by lia. exact Hs.
      * split; [lia|]. split; [reflexivity|].
        replace (Z.to_nat (PyStr.rfind_slash_from (i + 1) i s - i + 1))
          with (S (Z.to_nat (PyStr.rfind_slash_from (i + 1) i s - (i + 1) + 1)))
          by lia.
        exact Hd.
    + destruct (IH (i + 1)%Z last ltac:(lia)) as [[Hr Hs] | (Hr & Hs & Hd)].
      * left. split; assumption.
      * right. split; [lia|]. split; [exact Hs|].
        replace (Z.to_nat (PyStr.rfind_slash_from (i + 1) last s - i + 1))
          with (S (Z.to_nat (PyStr.rfind_slash_from (i + 1) last s - (i + 1) + 1)))
          by lia.
        exact Hd.
Qed.

Lemma basename_no_slash (p : string) : has_slash (basename p) = false.
Proof.
  unfold basename, PyStr.rfind_slash.
  destruct (rfind_slash_from_spec p 0 (-1) ltac:(lia)) as [[Hr Hs] | (Hr & Hs & Hd)].
  - rewrite Hr. exact Hs.
  - replace (PyStr.rfind_slash_from 0 (-1) p + 1)%Z
      with (PyStr.rfind_slash_from 0 (-1) p - 0 + 1)%Z by lia.
    exact Hd.
Qed.

Lemma basename_plain (p : string) : has_slash p = false -> basename p = p.
Proof.
  intros Hp. unfold basename, PyStr.rfind_slash.
  destruct (rfind_slash_from_spec p 0 (-1) ltac:(lia)) as [[Hr Hs] | (Hr & Hs & Hd)].
  - rewrite Hr. reflexivity.
  - congruence.
Qed.

Lemma rfind_slash_from_join (d f : string) (i last : Z) :
  (last < i)%Z -> has_slash f = false ->
  PyStr.rfind_slash_from i last (d +:+ "/" +:+ f) = (i + Z.of_nat (String.length d))%Z.
Proof.
  intros Hlt Hf. revert i last Hlt.
  induction d as [|c d IH]; intros i last Hlt.
  - change ("" +:+ "/" +:+ f) with (String "/" f).
    cbn [PyStr.rfind_slash_from String.length]. rewrite Ascii.eqb_refl.
    destruct (rfind_slash_from_spec f (i + 1) i ltac:(lia)) as [[Hr _] | (_ & Hs & _)].
    + rewrite Hr. lia.
    + congruence.
  - change (String c d +:+ "/" +:+ f) with (String c (d +:+ "/" +:+ f)).
    cbn [PyStr.rfind_slash_from String.length].
    rewrite IH by (destruct (Ascii.eqb c "/"); lia). lia.
Qed.

Lemma drop_join (d f : string) :
  PyStr.drop (S (String.length d)) (d +:+ "/" +:+ f) = f.
Proof. induction d as [|c d IH]; [reflexivity|exact IH]. Qed.

(** X1. [os.path.basename] as lines 44 and 85 use it: the result never
    contains a slash, a path without a slash is its own base name, the
    base name of a directory joined to a file name is the file name, and a
    path that ends with a slash has the empty base name. *)
Theorem basename_properties (d f : string) (Hf : has_slash f = false) :
  (forall p, has_slash (basename p) = false)
  /\ basename f = f
  /\ basename (d +:+ "/" +:+ f) = f
  /\ basename (d +:+ "/") = "".
Proof.
  split; [apply basename_no_slash|]. split; [apply basename_plain; exact Hf|].
  assert (Hjoin : forall g, has_slash g = false -> basename (d +:+ "/" +:+ g) = g).
  { intros g Hg. unfold basename, PyStr.rfind_slash.
    rewrite rfind_slash_from_join by (lia || exact Hg).
    replace (Z.to_nat (0 + Z.of_nat (String.length d) + 1)) with (S (String.length d))
      by lia.
    apply drop_join. }
  split; [apply Hjoin; exact Hf|].
  apply (Hjoin "" eq_refl).
Qed.

Lemma basename_properties_witness :
  (forall p, has_slash (basename p) = false)
  /\ basename "snap-1" = "snap-1"
  /\ basename ("/tmp/work" +:+ "/" +:+ "snap-1") = "snap-1"
  /\ basename ("/tmp/work" +:+ "/") = "".
Proof. apply (basename_properties "/tmp/work" "snap-1"). reflexivity. Defined.

Lemma basename_trailing_slash (d : string) : basename (d +:+ "/") = "".
Proof.
  change (d +:+ "/") with (d +:+ "/" +:+ "").
  unfold basename, PyStr.rfind_slash.
  rewrite rfind_slash_from_join by (lia || reflexivity).
  replace (Z.to_nat (0 + Z.of_nat (String.length d) + 1)) with (S (String.length d))
    by lia.
  apply drop_join.
Qed.

(** ** More on the runs of [transfer_scp] *)

Lemma connect_kwargs_lookup (host port username password ssh_key_path : PyVal) :
  exists kwargs lvl msg,
    connect_kwargs host port username password ssh_key_path
    = ([EvLog lvl msg], Returned kwargs)
    /\ lvl <> ERROR
    /\ kwargs !! "hostname" = Some host
    /\ kwargs !! "port" = Some port
    /\ kwargs !! "username" = Some username
    /\ kwargs !! "key_filename"
       = (if truthy ssh_key_path then Some ssh_key_path else None)
    /\ kwargs !! "password"
       = (if truthy ssh_key_path then None
          else if truthy password then Some password else None)
    /\ dom kwargs
       ⊆ ({["hostname"; "port"; "username"; "key_filename"; "password"]} : gset string).
Proof.
  unfold connect_kwargs.
  destruct (truthy ssh_key_path); [|destruct (truthy password)];
    eexists _, _, _; (split; [reflexivity|]); (split; [discriminate|]);
    repeat (split;
            [repeat (rewrite lookup_insert_ne by discriminate);
             rewrite ?lookup_insert_eq, ?lookup_empty; reflexivity|]);
    rewrite ?dom_insert_L, dom_empty_L; intros x;
    rewrite ?elem_of_union, ?elem_of_singleton, ?elem_of_empty; tauto.
Qed.

Ltac scp_cases_kwargs config :=
  unfold transfer_scp;
  destruct (py_all [dict_get config "host"; dict_get config "username"])
    eqn:Hvalid; cbn [negb];
  [ destruct (dict_get_default config "remote_directory" (PStr "~/"))
      as [| ?b | ?z | ?d] eqn:Hdir;
    match goal with
    | |- context [connect_kwargs ?a ?b ?c ?d ?e] =>
        destruct (connect_kwargs_lookup a b c d e)
          as (kwargs & lvl & msg & -> & Hlvl & Hkwargs)
    end;
    repeat (first [case_call | progress eval_run])
  | eval_run ].

Lemma py_all_host_username (config : gmap string PyVal) :
  truthy (dict_get config "host") = true ->
  truthy (dict_get config "username") = true ->
  py_all [dict_get config "host"; dict_get config "username"] = true.
Proof. intros Hh Hu. unfold py_all. cbn [forallb]. now rewrite Hh, Hu. Qed.

(** X3. Every connection attempt is made with the configured host and
    user name, with the configured port or 22 when the configuration has
    no port key, and with one authentication argument at most: the key
    file when a key path is configured, else the password when one is
    configured, else neither.  Nothing else is passed. *)
Theorem connect_arguments (t : transport) (config : gmap string PyVal)
    (local_file_path full_path : string) (custom_filename : option string) :
  let run := transfer_scp t config local_file_path full_path custom_filename in
  let key := dict_get config "ssh_key_path" in
  let password := dict_get config "password" in
  Forall (fun kwargs : gmap string PyVal =>
            kwargs !! "hostname" = Some (dict_get config "host")
            /\ kwargs !! "port"
               = Some (match config !! "port" with Some p => p | None => PInt 22 end)
            /\ kwargs !! "username" = Some (dict_get config "username")
            /\ kwargs !! "key_filename" = (if truthy key then Some key else None)
            /\ kwargs !! "password"
               = (if truthy key then None
                  else if truthy password then Some password else None)
            /\ dom kwargs
               ⊆ ({["hostname"; "port"; "username"; "key_filename"; "password"]}
                    : gset string))
    (connects (trace run)).
Proof.
  intros run key password. subst run key password.
  change (match config !! "port" with Some p => p | None => PInt 22 end)
    with (dict_get_default config "port" (PInt 22)).
  scp_cases_kwargs config;
    first [ constructor; [|constructor]; tauto | constructor ].
Qed.

(** A configuration with a key file and a password: the key file is used,
    the password is not sent, and the port is 22. *)
Example connect_with_key_and_password :
  exists kwargs,
    connects (trace (transfer_scp (Sample.transport_ok "/home/svc")
                       Mock.config_key_and_password "snap-1" "/tmp/work/snap-1" None))
    = [kwargs]
    /\ kwargs !! "key_filename" = Some (PStr "/root/.ssh/id_ed25519")
    /\ kwargs !! "password" = None
    /\ kwargs !! "port" = Some (PInt 22).
Proof. eexists. vm_compute. repeat split. Qed.

(** X4. A run never retries: it creates at most one SSH client, makes at
    most one connection attempt, creates at most one SCP client, runs at
    most one remote command and asks for at most one upload. *)
Theorem no_retry (t : transport) (config : gmap string PyVal)
    (local_file_path full_path : string) (custom_filename : option string) :
  let run := transfer_scp t config local_file_path full_path custom_filename in
  count_events is_ssh_client (trace run) <= 1
  /\ count_events is_connect (trace run) <= 1
  /\ count_events is_scp_client (trace run) <= 1
  /\ count_events is_exec (trace run) <= 1
  /\ count_events is_put (trace run) <= 1.
Proof.
  intros run; subst run. scp_cases config; unfold count_events;
    cbn [List.filter is_ssh_client is_connect is_scp_client is_exec is_put length];
    lia.
Qed.

(** X5. With a host and a user name that are both truthy, a run always
    goes to the network: it creates the SSH client, sets the host key
    policy, logs the authentication method and then attempts to connect,
    in that order. *)
Theorem valid_configuration_connects (t : transport) (config : gmap string PyVal)
    (local_file_path full_path : string) (custom_filename : option string)
    (Hhost : truthy (dict_get config "host") = true)
    (Huser : truthy (dict_get config "username") = true) :
  exists lvl msg kwargs rest,
    trace (transfer_scp t config local_file_path full_path custom_filename)
    = EvSSHClient :: EvSetPolicy :: EvLog lvl msg :: EvConnect kwargs :: rest.
Proof.
  pose proof (py_all_host_username config Hhost Huser) as Hall.
  scp_cases config; try congruence; eexists _, _, _, _; reflexivity.
Qed.

Lemma handler_message (e : exn) :
  handler e = ([EvLog ERROR (error_message e)], Returned false).
Proof. destruct e as [[] m]; reflexivity. Qed.

(** X6. When the connection attempt raises, nothing else is attempted:
    no SCP client, no remote command, no upload.  The run logs one ERROR
    record, whose text depends on the class of the exception (an
    authentication failure is reported as such although it is also an SSH
    error), and returns [False]. *)
Theorem connect_failure_stops_run (t : transport) (config : gmap string PyVal)
    (local_file_path full_path : string) (custom_filename : option string) (e : exn)
    (Hhost : truthy (dict_get config "host") = true)
    (Huser : truthy (dict_get config "username") = true)
    (Hconnect : forall kwargs, t_connect t kwargs = Some e) :
  exists lvl msg kwargs,
    transfer_scp t config local_file_path full_path custom_filename
    = ([EvSSHClient; EvSetPolicy; EvLog lvl msg; EvConnect kwargs;
        EvLog ERROR (error_message e)],
       Returned false).
Proof.
  unfold transfer_scp. rewrite (py_all_host_username config Hhost Huser). cbn [negb].
  destruct (connect_kwargs_run (dict_get config "host")
              (dict_get_default config "port" (PInt 22)) (dict_get config "username")
              (dict_get config "password") (dict_get config "ssh_key_path"))
    as (kwargs & lvl & msg & ->).
  exists lvl, msg, kwargs.
  cbv beta iota zeta delta
    [mbind M_bind bind mret M_ret ret emit call log raise try_except List.app].
  rewrite Hconnect, handler_message. reflexivity.
Qed.

(** X7. A run that returns [True] logs no ERROR record; a run that
    returns [False] logs exactly one. *)
Theorem one_error_record_per_failure (t : transport) (config : gmap string PyVal)
    (local_file_path full_path : string) (custom_filename : option string) :
  let run := transfer_scp t config local_file_path full_path custom_filename in
  (result run = Returned true /\ count_events is_error_log (trace run) = 0)
  \/ (result run = Returned false /\ count_events is_error_log (trace run) = 1).
Proof.
  intros run; subst run. scp_cases_kwargs config;
    try (destruct lvl; [| |congruence]);
    unfold count_events; cbn [List.filter is_error_log length];
    solve [ left; split; reflexivity | right; split; reflexivity ].
Qed.

(** X8. When the configured remote directory does not start with [~/]
    once it has its separator, no command is run on the remote host; and
    the only command a run ever executes there is [echo $HOME]. *)
Theorem home_query_only_for_shorthand (t : transport) (config : gmap string PyVal)
    (local_file_path full_path : string) (custom_filename : option string)
    (d : string)
    (Hdirectory : dict_get_default config "remote_directory" (PStr "~/") = PStr d)
    (Habsolute : needs_home d = false) :
  execs (trace (transfer_scp t config local_file_path full_path custom_filename)) = []
  /\ (forall t' config' lfp fp cf,
        Forall (fun cmd => cmd = "echo $HOME")
          (execs (trace (transfer_scp t' config' lfp fp cf)))).
Proof.
  split.
  - scp_cases config; try (rewrite Hdirectory in Hdir; simplify_eq);
      try reflexivity; congruence.
  - intros t' config' lfp fp cf. scp_cases config'; repeat constructor.
Qed.

(** The destination of the upload of a run whose calls succeed up to the
    upload. *)
Lemma transfer_scp_put_destination (t : transport) (config : gmap string PyVal)
    (local_file_path full_path : string) (custom_filename : option string)
    (d home : string) :
  truthy (dict_get config "host") = true ->
  truthy (dict_get config "username") = true ->
  dict_get_default config "remote_directory" (PStr "~/") = PStr d ->
  (forall kwargs, t_connect t kwargs = None) ->
  t_scp_client t = None ->
  remote_home t = Some home ->
  puts (trace (transfer_scp t config local_file_path full_path custom_filename))
  = [(full_aos_path local_file_path,
      resolved_directory home d +:+ remote_filename full_path custom_filename)].
Proof.
  intros Hhost Huser Hdir Hconnect Hclient Hhome.
  unfold transfer_scp. rewrite (py_all_host_username config Hhost Huser), Hdir.
  cbn [negb].
  destruct (connect_kwargs_run (dict_get config "host")
              (dict_get_default config "port" (PInt 22)) (dict_get config "username")
              (dict_get config "password") (dict_get config "ssh_key_path"))
    as (kwargs & lvl & msg & ->).
  rewrite remote_path_run, Hclient.
  unfold remote_home in Hhome.
  destruct (t_exec t "echo $HOME") as [e|out]; [discriminate|].
  injection Hhome as <-.
  cbv beta iota zeta delta
    [mbind M_bind bind mret M_ret ret emit call log raise try_except List.app trace fst].
  rewrite Hconnect.
  destruct (needs_home d) eqn:Hneeds.
  - repeat (first [case_call | progress eval_run]); reflexivity.
  - rewrite (resolved_directory_no_home (PyStr.strip out) d Hneeds).
    rewrite (resolved_directory_no_home "" d Hneeds).
    repeat (first [case_call | progress eval_run]); reflexivity.
Qed.

(** X9. When the configuration has no [remote_directory] key, the
    default [~/] applies: the upload goes to the remote home directory
    followed by a separator and the remote file name. *)
Theorem default_remote_directory_is_home (t : transport) (config : gmap string PyVal)
    (local_file_path full_path : string) (custom_filename : option string)
    (home : string)
    (Hhost : truthy (dict_get config "host") = true)
    (Huser : truthy (dict_get config "username") = true)
    (Hmissing : config !! "remote_directory" = None)
    (Hconnect : forall kwargs, t_connect t kwargs = None)
    (Hclient : t_scp_client t = None)
    (Hhome : remote_home t = Some home) :
  puts (trace (transfer_scp t config local_file_path full_path custom_filename))
  = [(full_aos_path local_file_path,
      home +:+ "/" +:+ remote_filename full_path custom_filename)].
Proof.
  assert (Hdir : dict_get_default config "remote_directory" (PStr "~/") = PStr "~/").
  { unfold dict_get_default. now rewrite Hmissing. }
  rewrite (transfer_scp_put_destination t config local_file_path full_path
             custom_filename "~/" home Hhost Huser Hdir Hconnect Hclient Hhome).
  change (resolved_directory home "~/") with (home +:+ "/").
  now rewrite PyStrFacts.app_assoc.
Qed.

(** X10. A [remote_directory] that is not a string (a key bound to
    [None], a number) does not fall back to the default: the run connects,
    creates the SCP client, then fails on [endswith]; it logs that error,
    uploads nothing, closes nothing and returns [False]. *)
Theorem non_string_remote_directory (t : transport) (config : gmap string PyVal)
    (local_file_path full_path : string) (custom_filename : option string)
    (v : PyVal)
    (Hhost : truthy (dict_get config "host") = true)
    (Huser : truthy (dict_get config "username") = true)
    (Hdir : dict_get_default config "remote_directory" (PStr "~/") = v)
    (Hv : forall d, v <> PStr d)
    (Hconnect : forall kwargs, t_connect t kwargs = None)
    (Hclient : t_scp_client t = None) :
  exists lvl msg kwargs,
    transfer_scp t config local_file_path full_path custom_filename
    = ([EvSSHClient; EvSetPolicy; EvLog lvl msg; EvConnect kwargs; EvSCPClient;
        EvLog ERROR ("Error during SCP transfer: " +:+ no_endswith v)],
       Returned false).
Proof.
  unfold transfer_scp. rewrite (py_all_host_username config Hhost Huser), Hdir.
  cbn [negb].
  destruct (connect_kwargs_run (dict_get config "host")
              (dict_get_default config "port" (PInt 22)) (dict_get config "username")
              (dict_get config "password") (dict_get config "ssh_key_path"))
    as (kwargs & lvl & msg & ->).
  exists lvl, msg, kwargs. rewrite Hclient.
  destruct v as [| b | z | d]; [| | |now destruct (Hv d)];
    cbv beta iota zeta delta
      [mbind M_bind bind mret M_ret ret emit call log raise try_except
       remote_path as_str List.app];
    rewrite Hconnect, handler_message; reflexivity.
Qed.

(** X11. When the configuration has no [transfer] section,
    [transfer_file] uses an empty one: the run is the configuration error
    record alone and the result is [False]. *)
Theorem missing_transfer_section (t : transport) (now : datetime)
    (config : gmap string (gmap string PyVal)) (full_path : string)
    (blueprint_id blueprint_name : option string)
    (Hmissing : config !! "transfer" = None) :
  transfer_file t now config full_path blueprint_id blueprint_name
  = ([EvLog ERROR "Missing required SCP configuration"], Returned false).
Proof.
  rewrite transfer_file_unfold, Hmissing. reflexivity.
Qed.

(** X12. When the upload succeeds and closing the SCP channel raises,
    the run returns [False] although the file was uploaded, and the SSH
    session is never closed. *)
Theorem scp_close_failure_after_upload (t : transport) (config : gmap string PyVal)
    (local_file_path full_path : string) (custom_filename : option string)
    (d home : string) (e : exn)
    (Hhost : truthy (dict_get config "host") = true)
    (Huser : truthy (dict_get config "username") = true)
    (Hdirectory : dict_get_default config "remote_directory" (PStr "~/") = PStr d)
    (Hconnect : forall kwargs, t_connect t kwargs = None)
    (Hclient : t_scp_client t = None)
    (Hhome : remote_home t = Some home)
    (Hput : forall src dst, t_put t src dst = None)
    (Hclose : t_scp_close t = Some e) :
  let run := transfer_scp t config local_file_path full_path custom_filename in
  result run = Returned false
  /\ puts (trace run)
     = [(full_aos_path local_file_path,
         resolved_directory home d +:+ remote_filename full_path custom_filename)]
  /\ count_events is_scp_close (trace run) = 1
  /\ count_events is_ssh_close (trace run) = 0
  /\ last (trace run) = Some (EvLog ERROR (error_message e)).
Proof.
  intros run; subst run.
  unfold transfer_scp. rewrite (py_all_host_username config Hhost Huser), Hdirectory.
  cbn [negb].
  destruct (connect_kwargs_run (dict_get config "host")
              (dict_get_default config "port" (PInt 22)) (dict_get config "username")
              (dict_get config "password") (dict_get config "ssh_key_path"))
    as (kwargs & lvl & msg & ->).
  rewrite remote_path_run, Hclient, Hclose.
  unfold remote_home in Hhome.
  destruct (t_exec t "echo $HOME") as [e'|out]; [discriminate|].
  injection Hhome as <-.
  destruct (needs_home d) eqn:Hneeds;
    [|rewrite (resolved_directory_no_home (PyStr.strip out) d Hneeds),
        (resolved_directory_no_home "" d Hneeds)];
    cbv beta iota zeta delta
      [mbind M_bind bind mret M_ret ret emit call log raise try_except List.app
       trace result fst snd];
    rewrite Hconnect, Hput, handler_message; repeat split.
Qed.

(** X13. With a transport whose [ssh.close] does not raise, a run that
    returns [False] never called [ssh.close]. *)
Theorem failed_run_never_closes_session (t : transport) (config : gmap string PyVal)
    (local_file_path full_path : string) (custom_filename : option string)
    (Hfalse : result (transfer_scp t config local_file_path full_path custom_filename)
              = Returned false)
    (Hclose : t_ssh_close t = None) :
  count_events is_ssh_close
    (trace (transfer_scp t config local_file_path full_path custom_filename)) = 0.
Proof.
  revert Hfalse. scp_cases config; intros Hfalse; try discriminate Hfalse;
    try congruence; reflexivity.
Qed.

Lemma remote_path_trailing_slash (t : transport) (d fn : string) :
  PyStr.endswith d "/" = false ->
  remote_path t (PStr (d +:+ "/")) fn = remote_path t (PStr d) fn.
Proof.
  intros Hd. unfold remote_path. cbn [as_str].
  cbv beta iota zeta delta [mbind M_bind bind mret M_ret ret List.app].
  now rewrite Hd, PyStrFacts.endswith_app_slash.
Qed.

(** X14. A trailing slash on the configured remote directory changes
    nothing: the run with [d] and the run with [d/] are the same. *)
Theorem trailing_slash_is_optional (t : transport) (config : gmap string PyVal)
    (local_file_path full_path : string) (custom_filename : option string)
    (d : string) (Hd : PyStr.endswith d "/" = false) :
  transfer_scp t (<["remote_directory" := PStr (d +:+ "/")]> config)
    local_file_path full_path custom_filename
  = transfer_scp t (<["remote_directory" := PStr d]> config)
      local_file_path full_path custom_filename.
Proof.
  unfold transfer_scp, dict_get, dict_get_default.
  rewrite !lookup_insert_eq.
  repeat (rewrite lookup_insert_ne by discriminate).
  rewrite remote_path_trailing_slash by exact Hd. reflexivity.
Qed.


(** X16. A [full_path] that ends with a slash has an empty base name:
    [transfer_file] then uploads [/var/lib/aos/snapshot//aos.data.tar.gz],
    and without a prefix the remote file name is [-aos.data.tar.gz]. *)
Theorem full_path_with_trailing_slash (t : transport) (now : datetime)
    (config : gmap string (gmap string PyVal)) (d : string)
    (blueprint_id blueprint_name : option string) :
  Forall (fun p => fst p = "/var/lib/aos/snapshot//aos.data.tar.gz")
    (puts (trace (transfer_file t now config (d +:+ "/") blueprint_id blueprint_name)))
  /\ remote_filename (d +:+ "/") None = "-aos.data.tar.gz"
  /\ remote_filename (d +:+ "/") (Some "") = "-aos.data.tar.gz".
Proof.
  pose proof (basename_trailing_slash d) as Hbase.
  split; [|split].
  - rewrite transfer_file_unfold, Hbase.
    destruct (transfer_scp_puts t (default ∅ (config !! "transfer")) "" (d +:+ "/")
                (Some (custom_filename now blueprint_id blueprint_name)))
      as [-> | [dir ->]]; repeat constructor.
  - unfold remote_filename. now rewrite Hbase.
  - unfold remote_filename. now rewrite Hbase.
Qed.

(** ** The properties above on the mock transports *)

Lemma valid_configuration_connects_witness :
  exists lvl msg kwargs rest,
    trace (transfer_scp Mock.auth_rejected (Sample.config "/srv/backups")
             "snap-1" "/tmp/work/snap-1" None)
    = EvSSHClient :: EvSetPolicy :: EvLog lvl msg :: EvConnect kwargs :: rest.
Proof.
  apply valid_configuration_connects; vm_compute; reflexivity.
Defined.

Lemma connect_failure_stops_run_witness :
  exists lvl msg kwargs,
    transfer_scp Mock.auth_rejected (Sample.config "/srv/backups")
      "snap-1" "/tmp/work/snap-1" None
    = ([EvSSHClient; EvSetPolicy; EvLog lvl msg; EvConnect kwargs;
        EvLog ERROR
          (error_message (mkExn AuthenticationException "Authentication failed."))],
       Returned false).
Proof.
  apply connect_failure_stops_run;
    [vm_compute; reflexivity | vm_compute; reflexivity | intros; reflexivity].
Defined.

Lemma home_query_only_for_shorthand_witness :
  execs (trace (transfer_scp (Sample.transport_ok "/home/svc")
                  (Sample.config "/srv/backups") "snap-1" "/tmp/work/snap-1" None))
  = []
  /\ (forall t' config' lfp fp cf,
        Forall (fun cmd => cmd = "echo $HOME")
          (execs (trace (transfer_scp t' config' lfp fp cf)))).
Proof.
  apply (home_query_only_for_shorthand _ _ _ _ _ "/srv/backups");
    vm_compute; reflexivity.
Defined.

Lemma default_remote_directory_is_home_witness :
  puts (trace (transfer_scp (Sample.transport_ok "/home/svc")
                 (<["username" := PStr "svc"]> (<["host" := PStr "backup.example.net"]> ∅))
                 "snap-1" "/tmp/work/snap-1" None))
  = [(full_aos_path "snap-1",
      "/home/svc" +:+ "/" +:+ remote_filename "/tmp/work/snap-1" None)].
Proof.
  apply default_remote_directory_is_home;
    try (vm_compute; reflexivity); intros; reflexivity.
Defined.

Lemma non_string_remote_directory_witness :
  exists lvl msg kwargs,
    transfer_scp (Sample.transport_ok "/home/svc") Mock.config_directory_none
      "snap-1" "/tmp/work/snap-1" None
    = ([EvSSHClient; EvSetPolicy; EvLog lvl msg; EvConnect kwargs; EvSCPClient;
        EvLog ERROR ("Error during SCP transfer: " +:+ no_endswith PNone)],
       Returned false).
Proof.
  apply non_string_remote_directory;
    try (vm_compute; reflexivity); intros; try discriminate; reflexivity.
Defined.

Lemma missing_transfer_section_witness :
  transfer_file (Sample.transport_ok "/home/svc") Sample.now ∅ "/tmp/work/snap-1"
    (Some "b1") None
  = ([EvLog ERROR "Missing required SCP configuration"], Returned false).
Proof. apply missing_transfer_section. reflexivity. Defined.

Lemma scp_close_failure_after_upload_witness :
  let run := transfer_scp Mock.scp_close_raises (Sample.config "/srv/backups")
               "snap-1" "/tmp/work/snap-1" None in
  result run = Returned false
  /\ puts (trace run)
     = [(full_aos_path "snap-1",
         resolved_directory "/home/svc" "/srv/backups"
         +:+ remote_filename "/tmp/work/snap-1" None)]
  /\ count_events is_scp_close (trace run) = 1
  /\ count_events is_ssh_close (trace run) = 0
  /\ last (trace run)
     = Some (EvLog ERROR (error_message (mkExn OtherException "channel closed"))).
Proof.
  apply (scp_close_failure_after_upload Mock.scp_close_raises);
    try (vm_compute; reflexivity); intros; reflexivity.
Defined.

Lemma failed_run_never_closes_session_witness :
  count_events is_ssh_close
    (trace (transfer_scp Sample.transport_put_raises (Sample.config "/srv/backups")
              "snap-1" "/tmp/work/snap-1" None)) = 0.
Proof.
  apply failed_run_never_closes_session; vm_compute; reflexivity.
Defined.

Lemma trailing_slash_is_optional_witness :
  transfer_scp (Sample.transport_ok "/home/svc")
    (<["remote_directory" := PStr ("/srv/backups" +:+ "/")]> (Sample.config "~/"))
    "snap-1" "/tmp/work/snap-1" None
  = transfer_scp (Sample.transport_ok "/home/svc")
      (<["remote_directory" := PStr "/srv/backups"]> (Sample.config "~/"))
      "snap-1" "/tmp/work/snap-1" None.
Proof. apply trailing_slash_is_optional. reflexivity. Defined.

